(** * A shallow embedding of [app.py] (CSV/Excel -> Oracle loader)

    Python [str] values are modelled as lists of Unicode code points
    ([pystr]).  The parts of the Unicode database that [str.strip],
    [str.upper] and the [\d] class of [re] consult are kept abstract in a
    record [unicode_db]; results that depend on them assume only that the
    database agrees with Python on the ASCII range. *)

From Stdlib Require Import NArith ZArith QArith String Ascii List Lia.
From stdpp Require Import base gmap list.
Import ListNotations.

Open Scope N_scope.

(* ------------------------------------------------------------------ *)
(** ** Python strings *)

Definition pystr := list N.

(** An ASCII literal as a Python string. *)
Fixpoint lit (s : string) : pystr :=
  match s with
  | EmptyString => []
  | String a s' => N_of_ascii a :: lit s'
  end.

Definition nl : pystr := [10].
Definition underscore : N := 95.

(** Python's [",".join(xs)] and friends. *)
Fixpoint join (sep : pystr) (xs : list pystr) : pystr :=
  match xs with
  | [] => []
  | [x] => x
  | x :: xs' => x ++ sep ++ join sep xs'
  end.

(** Python's decimal rendering of a non-negative int ([str(i)]). *)
Fixpoint digits_of (fuel : nat) (n : N) : pystr :=
  match fuel with
  | O => []
  | S f =>
      let d := 48 + n mod 10 in
      if (n <? 10)%N then [d] else digits_of f (n / 10) ++ [d]
  end.

Definition str_of_N (n : N) : pystr := digits_of (S (N.to_nat n)) n.

(** The Unicode character database as consulted by the code. *)
Record unicode_db := {
  ucd_upper : N -> list N;     (** full upper-case mapping ([str.upper]) *)
  ucd_isspace : N -> bool;     (** [str.isspace], used by [str.strip] *)
  ucd_isdecimal : N -> bool    (** [\d] of a [str] pattern (category Nd) *)
}.

Definition ascii_upper (c : N) : N :=
  if (97 <=? c) && (c <=? 122) then c - 32 else c.

(** Python's whitespace set ([str.isspace]). *)
Definition py_isspace (c : N) : bool :=
  ((9 <=? c) && (c <=? 13)) || ((28 <=? c) && (c <=? 32)) || (c =? 133)
  || (c =? 160) || (c =? 5760) || ((8192 <=? c) && (c <=? 8202))
  || (c =? 8232) || (c =? 8233) || (c =? 8239) || (c =? 8287) || (c =? 12288).

Definition ascii_digit (c : N) : bool := (48 <=? c) && (c <=? 57).

(** What every Unicode database Python ships says about ASCII. *)
Definition ucd_ascii_agree (U : unicode_db) : Prop :=
  forall c, c < 128 ->
    ucd_upper U c = [ascii_upper c] /\
    ucd_isspace U c = py_isspace c /\
    ucd_isdecimal U c = ascii_digit c.

(** A concrete database that is exact on ASCII (upper-casing is the
    identity beyond ASCII, and only ASCII digits are decimal). *)
Definition ascii_ucd : unicode_db := {|
  ucd_upper := fun c => [ascii_upper c];
  ucd_isspace := py_isspace;
  ucd_isdecimal := ascii_digit
|}.

Section Helpers.
Variable U : unicode_db.

Fixpoint lstrip (s : pystr) : pystr :=
  match s with
  | [] => []
  | c :: s' => if ucd_isspace U c then lstrip s' else s
  end.

(** [str.strip()] *)
Definition py_strip (s : pystr) : pystr := rev (lstrip (rev (lstrip s))).

(** [str.upper()] *)
Definition py_upper (s : pystr) : pystr := flat_map (ucd_upper U) s.

(** membership in the class [[A-Z0-9_]] *)
Definition ident_char (c : N) : bool :=
  ((65 <=? c) && (c <=? 90)) || ascii_digit c || (c =? underscore).

(** [re.sub(r"[^A-Z0-9_]", "_", name)] *)
Definition sub_non_ident (s : pystr) : pystr :=
  map (fun c => if ident_char c then c else underscore) s.

(** [re.match(r"^\d", name)] is truthy *)
Definition starts_with_digit (s : pystr) : bool :=
  match s with
  | [] => false
  | c :: _ => ucd_isdecimal U c
  end.

Definition MAX_IDENTIFIER_LEN : nat := 30.

(** [sanitize_identifier] (app.py, lines 42-47); [str(name)] is the
    identity on a [str]. *)
Definition sanitize_identifier (name0 : pystr) : pystr :=
  let name1 := py_upper (py_strip name0) in
  let name2 := sub_non_ident name1 in
  let name3 := if starts_with_digit name2 then underscore :: name2 else name2 in
  firstn MAX_IDENTIFIER_LEN name3.

End Helpers.

Example sanitize_ex1 :
  sanitize_identifier ascii_ucd (lit "  Col-2 x ") = lit "COL_2_X".
Proof. reflexivity. Qed.

Example sanitize_ex2 :
  sanitize_identifier ascii_ucd (lit "1st value") = lit "_1ST_VALUE".
Proof. reflexivity. Qed.

(* ------------------------------------------------------------------ *)
(** ** Identifier shapes *)

(** The regular expression [^[A-Z_][A-Z0-9_]{0,29}$], read literally. *)
Definition ident_head (c : N) : bool :=
  ((65 <=? c) && (c <=? 90)) || (c =? underscore).

Definition matches_ident_regex (s : pystr) : Prop :=
  match s with
  | [] => False
  | c :: t => ident_head c = true /\ Forall (fun d => ident_char d = true) t
              /\ (length t <= 29)%nat
  end.

Definition ascii_range : list N := map N.of_nat (seq 0 128).

(* ------------------------------------------------------------------ *)
(** ** pandas data *)

(** Column dtypes, as far as the [pd.api.types] predicates used by the
    code tell them apart. *)
Inductive dtype :=
| DInt (bits : nat) (signed : bool)   (** numpy int8 .. uint64 *)
| DFloat (bits : nat)                 (** numpy float16 .. float64 *)
| DComplex (bits : nat)
| DBool
| DDatetime (tz : option pystr)       (** datetime64[ns] / DatetimeTZDtype *)
| DTimedelta
| DPeriod
| DCategory
| DObject
| DIntNA | DFloatNA | DBoolNA | DStringNA.  (** masked extension dtypes *)

(** Cell values, with the four missing-value markers pandas uses. *)
Inductive cell :=
| CNone | CNaN | CNaT | CNA
| CInt (z : Z) | CFloat (q : Q) | CBool (b : bool) | CStr (s : pystr)
| CTime (t : Z) | CObj (n : N).

Record series := { s_dtype : dtype; s_values : list cell }.

(** A DataFrame: column labels, one series per label, and the row count. *)
Record frame := { f_columns : list pystr; f_data : list series; f_nrows : nat }.

(** [pd.api.types.is_integer_dtype] *)
Definition is_integer_dtype (d : dtype) : bool :=
  match d with DInt _ _ | DIntNA => true | _ => false end.

(** [pd.api.types.is_float_dtype] *)
Definition is_float_dtype (d : dtype) : bool :=
  match d with DFloat _ | DFloatNA => true | _ => false end.

(** [pd.api.types.is_datetime64_any_dtype] *)
Definition is_datetime64_any_dtype (d : dtype) : bool :=
  match d with DDatetime _ => true | _ => false end.

(** [pd.notnull] on one cell *)
Definition notnull (v : cell) : bool :=
  match v with CNone | CNaN | CNaT | CNA => false | _ => true end.

(** What [df[c]] returns: a Series for a unique label, a DataFrame when
    the label occurs more than once (labels may collide after
    sanitization), [KeyError] when it is absent. *)
Inductive selection :=
| SelSeries (s : series)
| SelFrame (ss : list series)
| SelKeyError.

Definition df_get (df : frame) (c : pystr) : selection :=
  match filter (fun p => bool_decide (fst p = c)) (combine (f_columns df) (f_data df)) with
  | [] => SelKeyError
  | [(_, s)] => SelSeries s
  | ps => SelFrame (map snd ps)
  end.

(** [infer_oracle_type] (app.py, lines 54-61).  The three predicates are
    false on a DataFrame argument, which has no single [dtype]. *)
Definition infer_oracle_type (col : selection) : pystr :=
  let d := match col with SelSeries s => Some (s_dtype s) | _ => None end in
  match d with
  | Some d =>
      if is_integer_dtype d then lit "NUMBER"
      else if is_float_dtype d then lit "NUMBER"
      else if is_datetime64_any_dtype d then lit "TIMESTAMP"
      else lit "VARCHAR2(4000)"
  | None => lit "VARCHAR2(4000)"
  end.

(** [f"{schema}.{table}" if schema else table]; the schema is a [str]
    or [None], and the empty string is falsy. *)
Definition qualify (schema : option pystr) (table : pystr) : pystr :=
  match schema with
  | Some ((_ :: _) as s) => s ++ lit "." ++ table
  | _ => table
  end.

(** [build_create_table_sql] (app.py, lines 63-69). *)
Definition build_create_table_sql (schema : option pystr) (table : pystr) (df : frame) : pystr :=
  let cols := map (fun c => c ++ lit " " ++ infer_oracle_type (df_get df c)) (f_columns df) in
  let full := qualify schema table in
  lit "CREATE TABLE " ++ full ++ lit " (" ++ nl ++ join (lit "," ++ nl) cols ++ nl ++ lit ")".

(** The column definitions the DDL is made of: each label with the type
    inferred for [df[label]]. *)
Definition column_definitions (df : frame) : list (pystr * pystr) :=
  map (fun c => (c, infer_oracle_type (df_get df c))) (f_columns df).

(** The DDL layout the specification describes: [CREATE TABLE full (],
    a newline, one [name type] line per column separated by [,] and a
    newline, a newline and [)]. *)
Fixpoint ddl_body (defs : list (pystr * pystr)) : pystr :=
  match defs with
  | [] => []
  | (c, t) :: rest =>
      c ++ lit " " ++ t ++
      match rest with [] => [] | _ :: _ => lit "," ++ nl ++ ddl_body rest end
  end.

Definition ddl_text (full : pystr) (defs : list (pystr * pystr)) : pystr :=
  lit "CREATE TABLE " ++ full ++ lit " (" ++ nl ++ ddl_body defs ++ nl ++ lit ")".

(** The missing-value marker [df.where(cond, None)] writes into a column
    of dtype [d].  pandas (since 1.3) first standardizes a [None] fill
    value to the dtype's own NA value ([Block._standardize_fill_value])
    for every non-object dtype; only object columns receive [None]. *)
Definition where_fill (d : dtype) : cell :=
  match d with
  | DObject => CNone
  | DIntNA | DFloatNA | DBoolNA | DStringNA => CNA
  | DDatetime _ | DTimedelta | DPeriod => CNaT
  | _ => CNaN
  end.

(** [df.where(pd.notnull(df), None)], column by column *)
Definition where_notnull_none (df : frame) : frame :=
  {| f_columns := f_columns df;
     f_data := map (fun s => {| s_dtype := s_dtype s;
                                s_values := map (fun v => if notnull v then v else where_fill (s_dtype s))
                                                (s_values s) |}) (f_data df);
     f_nrows := f_nrows df |}.

Definition numpy_numeric (d : dtype) : bool :=
  match d with DInt _ _ | DFloat _ => true | _ => false end.

(** [df.values]: a frame of numpy int and float columns only, with at
    least one float column, becomes one float64 array (ints turn into
    floats); any other mix is boxed into an object array, which keeps
    each cell as it is. *)
Definition values_cast (ds : list dtype) (v : cell) : cell :=
  if forallb numpy_numeric ds && existsb is_float_dtype ds then
    match v with CInt z => CFloat (inject_Z z) | _ => v end
  else v.

(** [df.values.tolist()]: one list per row, cells in column order. *)
Definition values_tolist (df : frame) : list (list cell) :=
  let ds := map s_dtype (f_data df) in
  map (fun i => map (fun s => values_cast ds (nth i (s_values s) CNone)) (f_data df))
      (seq 0 (f_nrows df)).

(** [",".join([f":{i+1}" for i in range(n)])] *)
Definition bind_list (n : nat) : pystr :=
  join (lit ",") (map (fun i => lit ":" ++ str_of_N (N.of_nat (i + 1))) (seq 0 n)).

(** The statement text and bind rows [insert_dataframe] hands to
    [cur.executemany] (app.py, lines 92-101). *)
Definition insert_statement (schema : option pystr) (table : pystr) (df0 : frame)
  : pystr * list (list cell) :=
  let df := where_notnull_none df0 in
  let cols := f_columns df in
  let binds := bind_list (length cols) in
  let full := qualify schema table in
  let sql := lit "INSERT INTO " ++ full ++ lit " (" ++ join (lit ",") cols ++ lit ") VALUES (" ++ binds ++ lit ")" in
  (sql, values_tolist df).

(* ------------------------------------------------------------------ *)
(** ** Exceptions, database calls and the Streamlit script *)

(** The error kinds the loader can meet; the code itself tells them
    apart only through [except Exception]. *)
Inductive exn_kind :=
| ConnectionError | CatalogError | SchemaError | InsertError | ParseError
| NameError | OtherError.

(** A raised exception; [exn_msg] is [str(e)]. *)
Record exn := { exn_kind_of : exn_kind; exn_msg : pystr }.

(** Observable events: database calls (recorded when attempted), widget
    output and log records. *)
Inductive event :=
| EvConnect (user host : pystr) (port : Z) (service : pystr)
| EvCatalog (owner table : pystr)
| EvExecute (sql : pystr)
| EvExecuteMany (sql : pystr) (rows : list (list cell))
| EvCommit
| EvUiSuccess (msg : pystr)
| EvUiError (msg : pystr)
| EvUiDataframe (df : frame)
| EvLogException (msg : pystr) (e : exn).

Definition is_db_event (ev : event) : bool :=
  match ev with
  | EvConnect _ _ _ _ | EvCatalog _ _ | EvExecute _ | EvExecuteMany _ _ | EvCommit => true
  | _ => false
  end.


(** How one script run ends: normally, by an exception escaping to
    Streamlit, or by [st.stop()] (a [BaseException], not caught by
    [except Exception]). *)
Inductive outcome (A : Type) :=
| Ok (a : A)
| Raised (e : exn)
| Stopped.
Arguments Ok {A} a.
Arguments Raised {A} e.
Arguments Stopped {A}.

(** Computations thread the trace of events. *)
Definition M (A : Type) : Type := list event -> list event * outcome A.

Definition ret {A} (a : A) : M A := fun tr => (tr, Ok a).

Definition bind {A B} (m : M A) (k : A -> M B) : M B :=
  fun tr =>
    match m tr with
    | (tr', Ok a) => k a tr'
    | (tr', Raised e) => (tr', Raised e)
    | (tr', Stopped) => (tr', Stopped)
    end.

Notation "x <- m ;; k" := (bind m (fun x => k)) (at level 100, m at next level, right associativity).
Notation "m ;; k" := (bind m (fun _ : unit => k)) (at level 100, right associativity).

Definition emit (ev : event) : M unit := fun tr => (tr ++ [ev], Ok tt).
Definition raise {A} (e : exn) : M A := fun tr => (tr, Raised e).
Definition st_stop {A} : M A := fun tr => (tr, Stopped).

(** [try: body except Exception as e: handler(e)] *)
Definition try_except (body : M unit) (handler : exn -> M unit) : M unit :=
  fun tr =>
    match body tr with
    | (tr', Raised e) => handler e tr'
    | r => r
    end.

(** The outside world: whether a database call raises, what the catalog
    query counts, and what pandas' readers make of the uploaded bytes. *)
Record world := {
  w_fails : list event -> event -> option exn;
  w_count : list event -> Z;
  w_read_csv : list N -> frame + exn;
  w_read_excel : list N -> frame + exn
}.

Record upload := { up_name : pystr; up_bytes : list N }.

(** The widget values of one script run. *)
Record params := {
  p_host : pystr; p_port : Z; p_service : pystr; p_user : pystr;
  p_password : pystr; p_schema : option pystr;
  p_uploaded : option upload; p_table : pystr;
  p_create_if_missing : bool; p_button : bool
}.

Record connection := { conn_username : pystr }.

(** the heap of DataFrame objects, for [sanitize_columns] *)
Abbreviation heap := (gmap positive frame) (only parsing).

Definition has_suffix (suf s : pystr) : bool :=
  bool_decide (skipn (length s - length suf) s = suf) && (length suf <=? length s)%nat.

Section Program.
Variable U : unicode_db.
Variable w : world.

(** [df.copy()]: a deep copy stored in a fresh object. *)
Definition df_copy (h : heap) (l : positive) : option (heap * positive) :=
  match h !! l with
  | Some f => let l' := fresh (dom h) in Some (<[l' := f]> h, l')
  | None => None
  end.

(** [df.columns = cols] on the object at [l] (pandas raises on a length
    mismatch). *)
Definition set_columns (h : heap) (l : positive) (cols : list pystr) : option heap :=
  match h !! l with
  | Some f =>
      if (length cols =? length (f_columns f))%nat
      then Some (<[l := {| f_columns := cols; f_data := f_data f; f_nrows := f_nrows f |}]> h)
      else None
  | None => None
  end.

(** [sanitize_columns] (app.py, lines 49-52). *)
Definition sanitize_columns (h : heap) (l : positive) : option (heap * positive) :=
  match df_copy h l with
  | Some (h1, l1) =>
      match h1 !! l1 with
      | Some f1 =>
          match set_columns h1 l1 (map (sanitize_identifier U) (f_columns f1)) with
          | Some h2 => Some (h2, l1)
          | None => None
          end
      | None => None
      end
  | None => None
  end.

(** The content of the object [sanitize_columns] returns. *)
Definition sanitized_frame (f : frame) : frame :=
  {| f_columns := map (sanitize_identifier U) (f_columns f);
     f_data := f_data f; f_nrows := f_nrows f |}.

(** A database call: recorded, then it may raise. *)
Definition db_call (ev : event) : M unit :=
  fun tr =>
    let tr' := tr ++ [ev] in
    match w_fails w tr ev with
    | Some e => (tr', Raised e)
    | None => (tr', Ok tt)
    end.

(** [get_connection] (app.py, lines 73-75) *)
Definition get_connection (user password host : pystr) (port : Z) (service : pystr) : M connection :=
  db_call (EvConnect user host port service);; ret {| conn_username := user |}.

(** the owner [table_exists] queries for *)
Definition owner_of (conn : connection) (schema : option pystr) : pystr :=
  match schema with
  | Some ((_ :: _) as s) => py_upper U s
  | _ => py_upper U (conn_username conn)
  end.

(** [table_exists] (app.py, lines 77-85) *)
Definition table_exists (conn : connection) (schema : option pystr) (table : pystr) : M bool :=
  db_call (EvCatalog (owner_of conn schema) table);;
  (fun tr => (tr, Ok (0 <? w_count w tr)%Z)).

(** [create_table] (app.py, lines 87-90) *)
Definition create_table (conn : connection) (schema : option pystr) (table : pystr) (df : frame) : M unit :=
  db_call (EvExecute (build_create_table_sql schema table df)).

(** [insert_dataframe] (app.py, lines 92-101) *)
Definition insert_dataframe (conn : connection) (schema : option pystr) (table : pystr) (df : frame) : M unit :=
  let st := insert_statement schema table df in
  db_call (EvExecuteMany (fst st) (snd st)).

Definition commit (conn : connection) : M unit := db_call EvCommit.

(** [read_file] (app.py, lines 105-109) *)
Definition parse_upload (f : upload) : frame + exn :=
  (if has_suffix (lit ".csv") (up_name f) then w_read_csv w else w_read_excel w) (up_bytes f).

Definition read_file (f : upload) : M frame :=
  match parse_upload f with
  | inl df => ret df
  | inr e => raise e
  end.

(** Reading the global [df], which is unbound when no file was uploaded. *)
Definition read_df (df : option frame) : M frame :=
  match df with
  | Some d => ret d
  | None => raise {| exn_kind_of := NameError; exn_msg := lit "name 'df' is not defined" |}
  end.

Definition msg_inserted : pystr := lit "Data inserted successfully " ++ [9989].

(** The body of the [try] under [if st.button(...)] (app.py, lines 137-151). *)
Definition upload_body (p : params) (df : option frame) : M unit :=
  conn <- get_connection (p_user p) (p_password p) (p_host p) (p_port p) (p_service p);;
  exists_ <- table_exists conn (p_schema p) (p_table p);;
  (if negb exists_ then
     (if negb (p_create_if_missing p) then
        emit (EvUiError (lit "Table does not exist"));; st_stop
      else ret tt);;
     d <- read_df df;;
     create_table conn (p_schema p) (p_table p) d;;
     commit conn;;
     emit (EvUiSuccess (lit "Table created"))
   else ret tt);;
  d <- read_df df;;
  insert_dataframe conn (p_schema p) (p_table p) d;;
  commit conn;;
  emit (EvUiSuccess msg_inserted).

(** The upload trigger with its handler (app.py, lines 136-155). *)
Definition upload_trigger (p : params) (df : option frame) : M unit :=
  try_except (upload_body p df)
    (fun e => emit (EvLogException (lit "Upload failed") e);; emit (EvUiError (exn_msg e))).

(** One run of the script from line 131 on. *)
Definition run_script (p : params) : M unit :=
  df <- (match p_uploaded p with
         | Some f =>
             d0 <- read_file f;;
             let d := sanitized_frame d0 in
             emit (EvUiSuccess (lit "Loaded " ++ str_of_N (N.of_nat (f_nrows d)) ++ lit " rows"));;
             emit (EvUiDataframe d);;
             ret (Some d)
         | None => ret None
         end);;
  if p_button p then upload_trigger p df else ret tt.

End Program.

(* ------------------------------------------------------------------ *)
(** ** The [logging] module, as [get_logger] uses it *)

Definition NOTSET : Z := 0.
Definition INFO : Z := 20.
Definition WARNING : Z := 30.
Definition ERROR : Z := 40.

Record formatter := { fmt_format : pystr; fmt_datefmt : pystr }.

(** Handlers keep their level at NOTSET in this program. *)
Inductive handler :=
| HStream (fmt : option formatter)                 (** [StreamHandler()] on stderr *)
| HRotatingFile (path : pystr) (max_bytes backup_count : Z) (fmt : option formatter)
| HLastResort.                                     (** [logging.lastResort] *)

Record logger := { lg_level : Z; lg_handlers : list handler; lg_propagate : bool }.

(** The loggers by name (children of the root logger), the root logger,
    and the files opened by file handlers, in order. *)
Record log_state := {
  ls_loggers : gmap pystr logger;
  ls_root : logger;
  ls_opened : list pystr
}.

(** [logging.Logger(name)] *)
Definition new_logger : logger := {| lg_level := NOTSET; lg_handlers := []; lg_propagate := true |}.

(** [logging.getLogger(name)]: the registered logger, created on first use. *)
Definition getLogger (name : pystr) (st : log_state) : log_state * logger :=
  match ls_loggers st !! name with
  | Some lg => (st, lg)
  | None => ({| ls_loggers := <[name := new_logger]> (ls_loggers st);
                ls_root := ls_root st; ls_opened := ls_opened st |}, new_logger)
  end.

Definition put_logger (name : pystr) (lg : logger) (st : log_state) : log_state :=
  {| ls_loggers := <[name := lg]> (ls_loggers st); ls_root := ls_root st; ls_opened := ls_opened st |}.

#[global] Instance formatter_eq_dec : EqDecision formatter.
Proof. solve_decision. Defined.

#[global] Instance handler_eq_dec : EqDecision handler.
Proof. solve_decision. Defined.

(** [Logger.addHandler]: appends unless the handler is already there. *)
Definition addHandler (h : handler) (lg : logger) : logger :=
  if bool_decide (h ∈ lg_handlers lg) then lg
  else {| lg_level := lg_level lg; lg_handlers := lg_handlers lg ++ [h];
          lg_propagate := lg_propagate lg |}.

Definition app_formatter : formatter :=
  {| fmt_format := lit "%(asctime)s | %(levelname)s | %(message)s";
     fmt_datefmt := lit "%Y-%m-%d %H:%M:%S" |}.

Definition app_log : pystr := lit "app.log".

(** [get_logger] (app.py, lines 14-34); the logger is named by its key. *)
Definition get_logger (name : pystr) (st0 : log_state) : log_state * pystr :=
  let '(st1, lg0) := getLogger name st0 in
  match lg_handlers lg0 with
  | _ :: _ => (st1, name)
  | [] =>
      let lg1 := {| lg_level := INFO; lg_handlers := lg_handlers lg0;
                    lg_propagate := lg_propagate lg0 |} in
      let ch := HStream (Some app_formatter) in
      (* [RotatingFileHandler(...)] opens its file when it is built *)
      let st2 := {| ls_loggers := ls_loggers st1; ls_root := ls_root st1;
                    ls_opened := ls_opened st1 ++ [app_log] |} in
      let fh := HRotatingFile app_log 2000000 3 (Some app_formatter) in
      let lg2 := addHandler fh (addHandler ch lg1) in
      let lg3 := {| lg_level := lg_level lg2; lg_handlers := lg_handlers lg2;
                    lg_propagate := false |} in
      (put_logger name lg3 st2, name)
  end.

(** [Logger.getEffectiveLevel] for a logger whose parent is the root. *)
Definition effective_level (st : log_state) (lg : logger) : Z :=
  if Z.eqb (lg_level lg) NOTSET then lg_level (ls_root st) else lg_level lg.

(** The handlers a record of level [lvl] logged on [name] reaches
    ([Logger.isEnabledFor] and [Logger.callHandlers]; every handler here
    has level NOTSET, and [logging.lastResort] takes a WARNING-or-above
    record nobody handled). *)
Definition dispatch (st : log_state) (name : pystr) (lvl : Z) : list handler :=
  match ls_loggers st !! name with
  | None => []
  | Some lg =>
      if Z.ltb lvl (effective_level st lg) then []
      else
        let hs := lg_handlers lg ++ (if lg_propagate lg then lg_handlers (ls_root st) else []) in
        match hs with
        | [] => if Z.leb WARNING lvl then [HLastResort] else []
        | _ => hs
        end
  end.

(** Running [get_logger] [k+1] times, as each Streamlit rerun of the
    script does. *)
Fixpoint get_logger_n (k : nat) (name : pystr) (st : log_state) : log_state :=
  match k with
  | O => fst (get_logger name st)
  | S k' => get_logger_n k' name (fst (get_logger name st))
  end.

(* ------------------------------------------------------------------ *)
(** ** Concrete inputs *)

(** A two-column frame: an int64 column and a text column with a gap. *)
Definition ex_df : frame := {|
  f_columns := [lit "ID"; lit "NAME"];
  f_data := [{| s_dtype := DInt 64 true; s_values := [CInt 1; CInt 2] |};
             {| s_dtype := DObject; s_values := [CStr (lit "a"); CNaN] |}];
  f_nrows := 2 |}.

(** A float64 column with one missing value, as [pd.read_csv] builds it
    from the lines [X], [1.5] and an empty line. *)
Definition float_df : frame := {|
  f_columns := [lit "X"];
  f_data := [{| s_dtype := DFloat 64; s_values := [CFloat (3 # 2); CNaN] |}];
  f_nrows := 2 |}.

(** A database that answers every call and whose catalog counts [n]. *)
Definition ok_world (n : Z) (df : frame) : world := {|
  w_fails := fun _ _ => None;
  w_count := fun _ => n;
  w_read_csv := fun _ => inl df;
  w_read_excel := fun _ => inl df |}.


Definition ex_upload : upload := {| up_name := lit "data.csv"; up_bytes := [] |}.

Definition ex_params (schema : option pystr) (create : bool) : params := {|
  p_host := lit "localhost"; p_port := 1521%Z; p_service := lit "FREEPDB1";
  p_user := lit "scott"; p_password := lit "tiger"; p_schema := schema;
  p_uploaded := Some ex_upload;
  p_table := lit "T"; p_create_if_missing := create; p_button := true |}.

Definition app_handlers : list handler :=
  [HStream (Some app_formatter); HRotatingFile app_log 2000000 3 (Some app_formatter)].

Definition app_logger : logger :=
  {| lg_level := INFO; lg_handlers := app_handlers; lg_propagate := false |}.

Definition empty_log_state : log_state :=
  {| ls_loggers := ∅; ls_root := {| lg_level := WARNING; lg_handlers := []; lg_propagate := true |};
     ls_opened := [] |}.

(** A run where the upload button is not clicked. *)
Definition idle_params : params := {|
  p_host := lit "localhost"; p_port := 1521%Z; p_service := lit "FREEPDB1";
  p_user := lit "scott"; p_password := lit "tiger"; p_schema := None;
  p_uploaded := Some ex_upload;
  p_table := lit "T"; p_create_if_missing := true; p_button := false |}.

(** A click with no file uploaded. *)
Definition noupload_params (create : bool) : params := {|
  p_host := lit "localhost"; p_port := 1521%Z; p_service := lit "FREEPDB1";
  p_user := lit "scott"; p_password := lit "tiger"; p_schema := None;
  p_uploaded := None;
  p_table := lit "T"; p_create_if_missing := create; p_button := true |}.



(** An all-text frame with gaps. *)
Definition obj_df : frame := {|
  f_columns := [lit "A"; lit "B"];
  f_data := [{| s_dtype := DObject; s_values := [CStr (lit "x"); CNaN] |};
             {| s_dtype := DObject; s_values := [CNA; CObj 7] |}];
  f_nrows := 2 |}.

(** An int64 column beside a float64 column. *)
Definition num_df : frame := {|
  f_columns := [lit "N"; lit "X"];
  f_data := [{| s_dtype := DInt 64 true; s_values := [CInt 1; CInt 2] |};
             {| s_dtype := DFloat 64; s_values := [CFloat (1 # 2); CNaN] |}];
  f_nrows := 2 |}.

(** Two headers, [a b] and [a-b], that sanitize to the same label. *)
Definition collide_df : frame := {|
  f_columns := [lit "a b"; lit "a-b"];
  f_data := [{| s_dtype := DInt 64 true; s_values := [CInt 1] |};
             {| s_dtype := DFloat 64; s_values := [CFloat 1] |}];
  f_nrows := 1 |}.

(* ------------------------------------------------------------------ *)
(** ** Facts about the identifier sanitizer *)

Section SanitizeFacts.
Variable U : unicode_db.
Hypothesis HU : ucd_ascii_agree U.

(** Every code point of [[A-Z0-9_]] is ASCII. *)
Lemma ident_char_lt c : ident_char c = true -> c < 128.
Proof.
  unfold ident_char, ascii_digit, underscore.
  rewrite !Bool.orb_true_iff, !Bool.andb_true_iff, !N.leb_le, N.eqb_eq. lia.
Qed.

Lemma in_ascii_range c : c < 128 -> In c ascii_range.
Proof.
  intros H. unfold ascii_range. apply in_map_iff.
  exists (N.to_nat c). split; [apply N2Nat.id |]. apply in_seq. lia.
Qed.

Lemma ident_char_facts_check :
  forallb (fun c => implb (ident_char c)
             (negb (py_isspace c) && (ascii_upper c =? c)
              && implb (negb (ascii_digit c)) (ident_head c)))
          ascii_range = true.
Proof. vm_compute. reflexivity. Qed.

Lemma ident_char_facts c :
  ident_char c = true ->
  (c < 128) /\ py_isspace c = false /\ ascii_upper c = c /\
  (ascii_digit c = false -> ident_head c = true).
Proof.
  intros H. pose proof (ident_char_lt c H) as Hlt.
  pose proof ident_char_facts_check as Hc.
  rewrite forallb_forall in Hc. specialize (Hc c (in_ascii_range c Hlt)).
  rewrite H in Hc. simpl in Hc.
  apply Bool.andb_true_iff in Hc as [Hc Hh].
  apply Bool.andb_true_iff in Hc as [Hs Hu].
  repeat split; auto.
  - destruct (py_isspace c); [discriminate | reflexivity].
  - apply N.eqb_eq; exact Hu.
  - intros Hd. rewrite Hd in Hh. exact Hh.
Qed.

Lemma sub_non_ident_ident s :
  Forall (fun c => ident_char c = true) (sub_non_ident s).
Proof.
  induction s as [|c s IH]; simpl; constructor; auto.
  destruct (ident_char c) eqn:E; [exact E | reflexivity].
Qed.

Lemma Forall_firstn_nat {A} (P : A -> Prop) n (l : list A) :
  Forall P l -> Forall P (firstn n l).
Proof.
  revert l; induction n as [|n IH]; intros [|x l] H; simpl; auto.
  inversion H; subst; constructor; auto.
Qed.

(** The shape of every result: characters in [[A-Z0-9_]], at most 30 of
    them, and no leading ASCII digit. *)
Lemma sanitize_shape x :
  let y := sanitize_identifier U x in
  Forall (fun c => ident_char c = true) y /\
  (length y <= 30)%nat /\
  (forall c t, y = c :: t -> ascii_digit c = false).
Proof.
  cbv zeta. unfold sanitize_identifier.
  set (s := sub_non_ident (py_upper U (py_strip U x))).
  assert (Hs : Forall (fun c => ident_char c = true) s) by apply sub_non_ident_ident.
  assert (H3 : Forall (fun c => ident_char c = true)
                 (if starts_with_digit U s then underscore :: s else s) /\
               forall c t, (if starts_with_digit U s then underscore :: s else s)
                           = c :: t -> ascii_digit c = false).
  { destruct (starts_with_digit U s) eqn:Ed.
    - split; [constructor; [reflexivity | exact Hs] |].
      intros c t E; inversion E; reflexivity.
    - split; [exact Hs |].
      intros c t E; rewrite E in Ed, Hs; simpl in Ed.
      inversion Hs as [|? ? Hc _]; subst.
      destruct (ident_char_facts c Hc) as [Hlt _].
      destruct (HU c Hlt) as [_ [_ Hd]]. congruence. }
  destruct H3 as [HF Hh].
  set (s3 := if starts_with_digit U s then underscore :: s else s) in *.
  split; [apply Forall_firstn_nat; exact HF |].
  split; [unfold MAX_IDENTIFIER_LEN; apply firstn_le_length |].
  intros c t E. unfold MAX_IDENTIFIER_LEN in E.
  destruct s3 as [|c' t']; [discriminate |].
  simpl in E. inversion E; subst. eapply Hh; reflexivity.
Qed.

End SanitizeFacts.

Section SanitizeFixed.
Variable U : unicode_db.
Hypothesis HU : ucd_ascii_agree U.

Lemma lstrip_ident (l : pystr) :
  Forall (fun c => ident_char c = true) l -> lstrip U l = l.
Proof.
  intros [|c l' Hc _]; [reflexivity |]. simpl.
  destruct (ident_char_facts c Hc) as [Hlt [Hsp _]].
  destruct (HU c Hlt) as [_ [Hs _]]. rewrite Hs, Hsp. reflexivity.
Qed.

Lemma py_strip_ident (l : pystr) :
  Forall (fun c => ident_char c = true) l -> py_strip U l = l.
Proof.
  intros H. unfold py_strip. rewrite (lstrip_ident l H).
  rewrite lstrip_ident; [apply rev_involutive |]. apply Forall_rev; exact H.
Qed.

Lemma py_upper_ident (l : pystr) :
  Forall (fun c => ident_char c = true) l -> py_upper U l = l.
Proof.
  induction 1 as [|c l Hc _ IH]; [reflexivity |]. unfold py_upper in *. simpl.
  destruct (ident_char_facts c Hc) as [Hlt [_ [Hup _]]].
  destruct (HU c Hlt) as [Hu _]. rewrite Hu, Hup, IH. reflexivity.
Qed.

Lemma sub_non_ident_ident_id (l : pystr) :
  Forall (fun c => ident_char c = true) l -> sub_non_ident l = l.
Proof.
  induction 1 as [|c l Hc _ IH]; [reflexivity |]. unfold sub_non_ident in *.
  simpl. rewrite Hc, IH. reflexivity.
Qed.

(** A string already in sanitized shape is left alone. *)
Lemma sanitize_fixed (y : pystr) :
  Forall (fun c => ident_char c = true) y ->
  (length y <= 30)%nat ->
  (forall c t, y = c :: t -> ascii_digit c = false) ->
  sanitize_identifier U y = y.
Proof.
  intros HF Hlen Hhd. unfold sanitize_identifier.
  rewrite py_strip_ident, py_upper_ident, sub_non_ident_ident_id by exact HF.
  assert (Hd : starts_with_digit U y = false).
  { destruct y as [|c t]; [reflexivity |]. simpl.
    inversion HF as [|? ? Hc _]; subst.
    destruct (ident_char_facts c Hc) as [Hlt _].
    destruct (HU c Hlt) as [_ [_ Hdec]]. rewrite Hdec. eapply Hhd; reflexivity. }
  rewrite Hd. apply firstn_all2. unfold MAX_IDENTIFIER_LEN. exact Hlen.
Qed.

End SanitizeFixed.

Lemma ascii_ucd_agree : ucd_ascii_agree ascii_ucd.
Proof. intros c _. simpl. auto. Qed.


(* ------------------------------------------------------------------ *)
(** ** The upload trigger *)

Definition name_error_df : exn :=
  {| exn_kind_of := NameError; exn_msg := lit "name 'df' is not defined" |}.

Ltac split_world :=
  repeat (cbn -[lit msg_inserted insert_statement build_create_table_sql owner_of sanitized_frame str_of_N];
          match goal with
          | |- context [w_fails ?w ?tr ?ev] => destruct (w_fails w tr ev) eqn:?
          | |- context [Z.ltb ?z (w_count ?w ?tr)] => destruct (Z.ltb z (w_count w tr)) eqn:?
          end).

Section Trigger.
Variable U : unicode_db.
Variable w : world.

Lemma upload_body_cases p df tr0 :
  let '(tr, o) := upload_body U w p df tr0 in
  (exists new, tr = tr0 ++ new /\ forall m e, ~ In (EvLogException m e) new) /\
  (forall e, o = Raised e ->
     (exists pre ev, tr = pre ++ [ev] /\ is_db_event ev = true /\ w_fails w pre ev = Some e)
     \/ (df = None /\ e = name_error_df)).
Proof.
  unfold upload_body, get_connection, table_exists, create_table, insert_dataframe,
    commit, read_df, bind, db_call, ret, emit, st_stop, raise.
  destruct (p_create_if_missing p), df as [d|];
  split_world;
  (split;
   [ eexists; split; [rewrite <- ?app_assoc; reflexivity |];
     intros ? ? H; simpl in H; repeat (destruct H as [H|H]; [discriminate|]); exact H
   | intros ? He; try discriminate; injection He as <-;
     first [ left; do 2 eexists; split; [reflexivity | split; [reflexivity | eassumption]]
           | right; split; reflexivity ] ]).
Qed.

(** The [except Exception] clause turns every exception of the body into
    a log record and one [st.error(str(e))], and nothing else escapes. *)
Lemma upload_trigger_cases p df tr0 :
  let '(tr, o) := upload_trigger U w p df tr0 in
  (forall e, o <> Raised e) /\
  ((exists new, tr = tr0 ++ new /\ forall m e, ~ In (EvLogException m e) new)
   \/ (exists pre e,
        tr = pre ++ [EvLogException (lit "Upload failed") e; EvUiError (exn_msg e)] /\
        o = Ok tt /\
        ((exists pre0 ev, pre = pre0 ++ [ev] /\ is_db_event ev = true /\ w_fails w pre0 ev = Some e)
         \/ (df = None /\ e = name_error_df)))).
Proof.
  pose proof (upload_body_cases p df tr0) as H.
  unfold upload_trigger, try_except.
  destruct (upload_body U w p df tr0) as [tr o]. destruct H as [Hnew Hraise].
  destruct o as [[]|e|].
  - split; [discriminate |]. left; exact Hnew.
  - unfold bind, emit. split; [discriminate |]. right.
    exists tr, e. split; [rewrite <- app_assoc; reflexivity |]. split; [reflexivity |].
    apply Hraise; reflexivity.
  - split; [discriminate |]. left; exact Hnew.
Qed.

End Trigger.


Lemma run_script_parse_error U w p f e :
  p_uploaded p = Some f -> parse_upload w f = inr e ->
  run_script U w p [] = ([], Raised e).
Proof. intros Hu Hp. unfold run_script, read_file. rewrite Hu, Hp. reflexivity. Qed.

Lemma run_script_no_upload U w p :
  p_uploaded p = None ->
  run_script U w p [] = if p_button p then upload_trigger U w p None [] else ([], Ok tt).
Proof. intros Hu. unfold run_script. rewrite Hu. destruct (p_button p); reflexivity. Qed.


(* ------------------------------------------------------------------ *)
(** ** The loader's database calls *)




(* ------------------------------------------------------------------ *)
(** ** Error handling *)






(* ------------------------------------------------------------------ *)
(** ** The identifier sanitizer *)

(** C3.  For every input the result is empty exactly when the string is
    empty after the character substitution; otherwise it matches
    [^[A-Z_][A-Z0-9_]{0,29}$].  In every case it consists of
    [[A-Z0-9_]] only and a non-empty result does not start with a digit. *)
Theorem sanitize_identifier_matches_regex U (HU : ucd_ascii_agree U) x :
  let y := sanitize_identifier U x in
  (y = [] <-> sub_non_ident (py_upper U (py_strip U x)) = []) /\
  (y <> [] -> matches_ident_regex y) /\
  Forall (fun c => ident_char c = true) y /\
  (forall c t, y = c :: t -> ascii_digit c = false).
Proof.
  cbv zeta. destruct (sanitize_shape U HU x) as [HF [Hlen Hhd]].
  split; [| split; [| split; [exact HF | exact Hhd]]].
  - unfold sanitize_identifier, MAX_IDENTIFIER_LEN.
    destruct (sub_non_ident (py_upper U (py_strip U x))) as [|c t];
      [simpl; tauto |].
    split; intros H; [| discriminate].
    destruct (starts_with_digit U (c :: t)); discriminate.
  - intros Hne. destruct (sanitize_identifier U x) as [|c t] eqn:Ey;
      [contradiction |].
    inversion HF as [|? ? Hc Ht]; subst.
    destruct (ident_char_facts c Hc) as [_ [_ [_ Hhead]]].
    simpl in Hlen. split; [apply Hhead; eapply Hhd; reflexivity |].
    split; [exact Ht | lia].
Qed.

Lemma sanitize_identifier_matches_regex_witness :
  ucd_ascii_agree ascii_ucd /\
  let y := sanitize_identifier ascii_ucd (lit " 9 lives!") in
  (y = [] <-> sub_non_ident (py_upper ascii_ucd (py_strip ascii_ucd (lit " 9 lives!"))) = []) /\
  (y <> [] -> matches_ident_regex y) /\
  Forall (fun c => ident_char c = true) y /\
  (forall c t, y = c :: t -> ascii_digit c = false).
Proof.
  assert (HU : ucd_ascii_agree ascii_ucd) by (intros c _; simpl; auto).
  split; [exact HU |].
  exact (sanitize_identifier_matches_regex ascii_ucd HU (lit " 9 lives!")).
Defined.

(** C4.  Sanitizing twice is sanitizing once, and the result has at most
    30 characters. *)
Theorem sanitize_identifier_idempotent U (HU : ucd_ascii_agree U) x :
  sanitize_identifier U (sanitize_identifier U x) = sanitize_identifier U x /\
  (length (sanitize_identifier U x) <= 30)%nat.
Proof.
  destruct (sanitize_shape U HU x) as [HF [Hlen Hhd]].
  split; [apply sanitize_fixed; assumption | exact Hlen].
Qed.

Lemma sanitize_identifier_idempotent_witness :
  ucd_ascii_agree ascii_ucd /\
  sanitize_identifier ascii_ucd (sanitize_identifier ascii_ucd (lit "7 Order-Line Total Amount (EUR)")) =
    sanitize_identifier ascii_ucd (lit "7 Order-Line Total Amount (EUR)") /\
  (length (sanitize_identifier ascii_ucd (lit "7 Order-Line Total Amount (EUR)")) <= 30)%nat.
Proof.
  assert (HU : ucd_ascii_agree ascii_ucd) by (intros c _; simpl; auto).
  split; [exact HU |].
  exact (sanitize_identifier_idempotent ascii_ucd HU (lit "7 Order-Line Total Amount (EUR)")).
Defined.

(* ------------------------------------------------------------------ *)
(** ** Type inference and DDL *)

(** C5 (as amended).  The type depends on the dtype alone, first match
    winning: integer dtypes give NUMBER, float dtypes NUMBER, datetime64
    dtypes TIMESTAMP, every other dtype VARCHAR2(4000); the values,
    missing or not, play no part. *)
Theorem infer_oracle_type_by_dtype (s : series) (vs : list cell) :
  infer_oracle_type (SelSeries s) =
    match s_dtype s with
    | DInt _ _ | DIntNA => lit "NUMBER"
    | DFloat _ | DFloatNA => lit "NUMBER"
    | DDatetime _ => lit "TIMESTAMP"
    | DComplex _ | DBool | DTimedelta | DPeriod | DCategory | DObject
    | DBoolNA | DStringNA => lit "VARCHAR2(4000)"
    end /\
  infer_oracle_type (SelSeries {| s_dtype := s_dtype s; s_values := vs |}) =
    infer_oracle_type (SelSeries s).
Proof. destruct s as [[] vs0]; split; reflexivity. Qed.

(** C5 as stated fails: a column whose values are all missing is not
    sent to the text fallback when its dtype is float64, the dtype
    [pd.read_csv] gives an empty column. *)
Lemma all_null_float_column_is_number :
  forallb (fun v => negb (notnull v)) [CNaN; CNaN] = true /\
  infer_oracle_type (SelSeries {| s_dtype := DFloat 64; s_values := [CNaN; CNaN] |}) = lit "NUMBER".
Proof. split; reflexivity. Qed.

Lemma join_ddl_body (defs : list (pystr * pystr)) :
  join (lit "," ++ nl) (map (fun d => fst d ++ lit " " ++ snd d) defs) = ddl_body defs.
Proof.
  induction defs as [|[c t] rest IH]; [reflexivity |].
  destruct rest as [|d rest]; [simpl; rewrite app_nil_r; reflexivity |].
  change (join (lit "," ++ nl) (map (fun d => fst d ++ lit " " ++ snd d) ((c, t) :: d :: rest)))
    with ((c ++ lit " " ++ t) ++ (lit "," ++ nl) ++
          join (lit "," ++ nl) (map (fun d => fst d ++ lit " " ++ snd d) (d :: rest))).
  rewrite IH. simpl ddl_body. rewrite <- !app_assoc. reflexivity.
Qed.

Lemma build_create_table_sql_layout schema table df :
  build_create_table_sql schema table df = ddl_text (qualify schema table) (column_definitions df).
Proof.
  unfold build_create_table_sql, ddl_text, column_definitions.
  rewrite <- join_ddl_body, map_map. reflexivity.
Qed.

(** C6.  The DDL is the newline-joined text [CREATE TABLE [schema.]table (],
    the [name type] lines separated by [,], and [)]; for an int64 column
    [ID] and a text column [NAME] and table [T] without schema it is
    exactly [CREATE TABLE T (\nID NUMBER,\nNAME VARCHAR2(4000)\n)]. *)
Theorem build_create_table_sql_literal schema table df :
  build_create_table_sql schema table df = ddl_text (qualify schema table) (column_definitions df) /\
  column_definitions ex_df = [(lit "ID", lit "NUMBER"); (lit "NAME", lit "VARCHAR2(4000)")] /\
  build_create_table_sql None (lit "T") ex_df =
    lit "CREATE TABLE T (" ++ nl ++ lit "ID NUMBER," ++ nl ++ lit "NAME VARCHAR2(4000)" ++ nl ++ lit ")".
Proof.
  split; [apply build_create_table_sql_layout |]. split; reflexivity.
Qed.

(* ------------------------------------------------------------------ *)
(** ** The optional schema *)

(** C9.  An empty schema string behaves as no schema: the existence
    check looks under the upper-cased user name, and both statements
    name the bare table. *)
Theorem empty_schema_as_absent U conn table df :
  owner_of U conn (Some []) = owner_of U conn None /\
  owner_of U conn None = py_upper U (conn_username conn) /\
  build_create_table_sql (Some []) table df = build_create_table_sql None table df /\
  build_create_table_sql (Some []) table df = ddl_text table (column_definitions df) /\
  insert_statement (Some []) table df = insert_statement None table df /\
  fst (insert_statement (Some []) table df) =
    lit "INSERT INTO " ++ table ++ lit " (" ++ join (lit ",") (f_columns df) ++
    lit ") VALUES (" ++ bind_list (length (f_columns df)) ++ lit ")".
Proof.
  repeat split; try reflexivity.
  apply build_create_table_sql_layout.
Qed.

(* ------------------------------------------------------------------ *)
(** ** The insert statement *)

(** C7 (code bug).  For a float64 column with a missing value, the text
    and the single batch are as described, but [df.where(pd.notnull(df),
    None)] leaves the missing value as NaN instead of [None]: the
    second bind row carries NaN. *)
Lemma insert_keeps_nan_in_float_column :
  insert_statement None (lit "T") float_df =
    (lit "INSERT INTO T (X) VALUES (:1)", [[CFloat (3 # 2)]; [CNaN]]) /\
  notnull CNaN = false.
Proof. split; reflexivity. Qed.

(* ------------------------------------------------------------------ *)
(** ** [sanitize_columns] works on a copy *)

(** C10.  [sanitize_columns] returns a fresh object whose labels are the
    sanitized labels in order and whose data are those of its input; the
    input object, and every other object, is left as it was. *)
Theorem sanitize_columns_on_copy U (h : heap) (l : positive) (f : frame) :
  h !! l = Some f ->
  exists h' l',
    sanitize_columns U h l = Some (h', l') /\ l' <> l /\ h !! l' = None /\
    h' !! l = Some f /\
    h' !! l' = Some {| f_columns := map (sanitize_identifier U) (f_columns f);
                       f_data := f_data f; f_nrows := f_nrows f |} /\
    (forall k, k <> l' -> h' !! k = h !! k).
Proof.
  intros Hl. unfold sanitize_columns, df_copy. rewrite Hl.
  set (l' := fresh (dom h)).
  assert (Hfresh : h !! l' = None).
  { apply not_elem_of_dom. apply is_fresh. }
  assert (Hne : l' <> l) by (intros ->; congruence).
  rewrite lookup_insert_eq. unfold set_columns. rewrite lookup_insert_eq.
  rewrite length_map, Nat.eqb_refl.
  eexists _, l'. split; [reflexivity |]. split; [exact Hne |]. split; [exact Hfresh |].
  split; [rewrite !lookup_insert_ne by congruence; exact Hl |].
  split; [rewrite lookup_insert_eq; reflexivity |].
  intros k Hk. rewrite !lookup_insert_ne by congruence. reflexivity.
Qed.

Lemma sanitize_columns_on_copy_witness :
  ({[1%positive := ex_df]} : heap) !! 1%positive = Some ex_df /\
  exists h' l',
    sanitize_columns ascii_ucd {[1%positive := ex_df]} 1%positive = Some (h', l') /\ l' <> 1%positive /\
    ({[1%positive := ex_df]} : heap) !! l' = None /\
    h' !! 1%positive = Some ex_df /\
    h' !! l' = Some {| f_columns := map (sanitize_identifier ascii_ucd) (f_columns ex_df);
                       f_data := f_data ex_df; f_nrows := f_nrows ex_df |} /\
    (forall k, k <> l' -> h' !! k = ({[1%positive := ex_df]} : heap) !! k).
Proof.
  assert (H : ({[1%positive := ex_df]} : heap) !! 1%positive = Some ex_df) by reflexivity.
  split; [exact H |].
  exact (sanitize_columns_on_copy ascii_ucd {[1%positive := ex_df]} 1%positive ex_df H).
Defined.

(* ------------------------------------------------------------------ *)
(** ** Witnesses for the loader theorems *)



(* ------------------------------------------------------------------ *)
(** ** [get_logger] *)

Lemma get_logger_configured_noop name st lg :
  ls_loggers st !! name = Some lg -> lg_handlers lg <> [] ->
  get_logger name st = (st, name).
Proof.
  intros Hl Hh. unfold get_logger, getLogger. rewrite Hl.
  destruct (lg_handlers lg); [congruence | reflexivity].
Qed.

Lemma get_logger_bare name st :
  (forall lg, ls_loggers st !! name = Some lg -> lg_handlers lg = []) ->
  get_logger name st =
    ({| ls_loggers := <[name := app_logger]> (ls_loggers st); ls_root := ls_root st;
        ls_opened := ls_opened st ++ [app_log] |}, name).
Proof.
  intros Hb. unfold get_logger, getLogger.
  destruct (ls_loggers st !! name) as [lg|] eqn:Hl.
  - pose proof (Hb lg eq_refl) as Hh. destruct lg as [lv hs pr]. simpl in Hh. subst hs.
    reflexivity.
  - unfold put_logger. simpl. rewrite insert_insert_eq. reflexivity.
Qed.

Lemma get_logger_leaves_handlers name st :
  exists lg, ls_loggers (fst (get_logger name st)) !! name = Some lg /\ lg_handlers lg <> [].
Proof.
  destruct (ls_loggers st !! name) as [lg|] eqn:Hl.
  - destruct (lg_handlers lg) as [|h hs] eqn:Hh.
    + rewrite get_logger_bare by (intros lg' Hl'; congruence).
      exists app_logger. simpl. rewrite lookup_insert_eq. split; [reflexivity | discriminate].
    + rewrite (get_logger_configured_noop name st lg Hl) by congruence.
      exists lg. simpl. rewrite Hh. split; [exact Hl | discriminate].
  - rewrite get_logger_bare by (intros lg' Hl'; congruence).
    exists app_logger. simpl. rewrite lookup_insert_eq. split; [reflexivity | discriminate].
Qed.

(** [get_logger] runs again on every rerun of the script: however many
    times it runs, the logging state is the one a single call leaves (no
    handler is added twice and [app.log] is opened once). *)
Theorem get_logger_rerun_idempotent (k : nat) name st :
  get_logger_n k name st = fst (get_logger name st).
Proof.
  revert st. induction k as [|k IH]; intros st; [reflexivity |].
  simpl. rewrite IH.
  destruct (get_logger_leaves_handlers name st) as [lg [Hl Hh]].
  rewrite (get_logger_configured_noop name (fst (get_logger name st)) lg Hl Hh).
  reflexivity.
Qed.

(** After [get_logger] on a bare logger, a record of level INFO or above
    (such as the ERROR record of [logger.exception]) goes to the stream
    handler and the rotating file handler, once each, and never to the
    root logger's handlers, whatever they are; a record below INFO goes
    nowhere. *)
Theorem get_logger_dispatch name st (lvl : Z) :
  (forall lg, ls_loggers st !! name = Some lg -> lg_handlers lg = []) ->
  dispatch (fst (get_logger name st)) name lvl =
    if Z.ltb lvl INFO then [] else app_handlers.
Proof.
  intros Hb. rewrite (get_logger_bare name st Hb). unfold dispatch. simpl.
  rewrite lookup_insert_eq. reflexivity.
Qed.

Lemma get_logger_dispatch_witness :
  (forall lg, ls_loggers empty_log_state !! lit "app" = Some lg -> lg_handlers lg = []) /\
  dispatch (fst (get_logger (lit "app") empty_log_state)) (lit "app") ERROR =
    if Z.ltb ERROR INFO then [] else app_handlers.
Proof.
  assert (Hb : forall lg, ls_loggers empty_log_state !! lit "app" = Some lg -> lg_handlers lg = [])
    by (intros lg Hl; discriminate).
  split; [exact Hb |]. exact (get_logger_dispatch (lit "app") empty_log_state ERROR Hb).
Defined.

(* ------------------------------------------------------------------ *)
(** ** [read_file] and the script's control flow *)

Lemma has_suffix_app suf stem : has_suffix suf (stem ++ suf) = true.
Proof.
  unfold has_suffix. rewrite length_app.
  replace (length stem + length suf - length suf)%nat with (length stem) by lia.
  rewrite skipn_app, skipn_all, Nat.sub_diag, skipn_O. simpl.
  rewrite bool_decide_eq_true_2 by reflexivity. simpl. apply Nat.leb_le. lia.
Qed.

Lemma skipn_app_add {A} (l t : list A) k : skipn (length l + k) (l ++ t) = skipn k t.
Proof. induction l; simpl; auto. Qed.

(** [read_file] picks the reader by the exact, case-sensitive suffix
    [.csv]: any name ending in [.csv] goes to [pd.read_csv], while a name
    ending in [.CSV] or [.xlsx] goes to [pd.read_excel]. *)
Theorem read_file_by_suffix w stem b :
  parse_upload w {| up_name := stem ++ lit ".csv"; up_bytes := b |} = w_read_csv w b /\
  parse_upload w {| up_name := stem ++ lit ".CSV"; up_bytes := b |} = w_read_excel w b /\
  parse_upload w {| up_name := stem ++ lit ".xlsx"; up_bytes := b |} = w_read_excel w b.
Proof.
  unfold parse_upload. cbn [up_name up_bytes]. rewrite has_suffix_app. split; [reflexivity |].
  unfold has_suffix. rewrite !length_app.
  replace (length stem + length (lit ".CSV") - length (lit ".csv"))%nat with (length stem + 0)%nat
    by (simpl; lia).
  replace (length stem + length (lit ".xlsx") - length (lit ".csv"))%nat with (length stem + 1)%nat
    by (simpl; lia).
  rewrite !skipn_app_add.
  rewrite !bool_decide_eq_false_2 by (simpl; discriminate). split; reflexivity.
Qed.

(** Without a click on the upload button a run makes no database call
    and logs nothing, whatever was uploaded. *)
Theorem no_click_no_database U w p :
  p_button p = false ->
  filter is_db_event (fst (run_script U w p [])) = [] /\
  (forall m e, ~ In (EvLogException m e) (fst (run_script U w p []))).
Proof.
  intros Hb. unfold run_script, read_file, bind, ret, raise, emit. rewrite Hb.
  destruct (p_uploaded p) as [f|]; [destruct (parse_upload w f) |]; simpl;
    (split; [reflexivity | intros ? ? H; repeat (destruct H as [H|H]; [discriminate|]); exact H]).
Qed.

Lemma no_click_no_database_witness :
  p_button idle_params = false /\
  filter is_db_event (fst (run_script ascii_ucd (ok_world 0 ex_df) idle_params [])) = [] /\
  (forall m e, ~ In (EvLogException m e) (fst (run_script ascii_ucd (ok_world 0 ex_df) idle_params []))).
Proof.
  split; [reflexivity |]. apply (no_click_no_database ascii_ucd (ok_world 0 ex_df) idle_params).
  reflexivity.
Defined.

(** A click with no file uploaded, on a database that raises nothing:
    the run connects and checks the catalog, then either stops with
    "Table does not exist" (table missing, create-if-missing off) or
    fails on the unbound [df], which the handler logs and shows; no DDL
    and no insert is ever sent. *)
Theorem click_without_upload U w p :
  p_button p = true -> p_uploaded p = None ->
  (forall tr ev, w_fails w tr ev = None) ->
  let conn := EvConnect (p_user p) (p_host p) (p_port p) (p_service p) in
  let cat := EvCatalog (owner_of U {| conn_username := p_user p |} (p_schema p)) (p_table p) in
  if (0 <? w_count w [conn; cat])%Z || p_create_if_missing p
  then run_script U w p [] =
         ([conn; cat; EvLogException (lit "Upload failed") name_error_df;
           EvUiError (exn_msg name_error_df)], Ok tt)
  else run_script U w p [] = ([conn; cat; EvUiError (lit "Table does not exist")], Stopped).
Proof.
  intros Hb Hu Hf. cbv zeta. rewrite (run_script_no_upload U w p Hu), Hb.
  unfold upload_trigger, try_except, upload_body, get_connection, table_exists,
    create_table, insert_dataframe, commit, read_df, bind, db_call, ret, emit, st_stop, raise.
  rewrite !Hf. simpl.
  destruct (0 <? w_count w _)%Z, (p_create_if_missing p); reflexivity.
Qed.

Lemma click_without_upload_witness :
  p_button (noupload_params false) = true /\ p_uploaded (noupload_params false) = None /\
  (forall tr ev, w_fails (ok_world 0 ex_df) tr ev = None) /\
  run_script ascii_ucd (ok_world 0 ex_df) (noupload_params false) [] =
    ([EvConnect (lit "scott") (lit "localhost") 1521%Z (lit "FREEPDB1");
      EvCatalog (owner_of ascii_ucd {| conn_username := lit "scott" |} None) (lit "T");
      EvUiError (lit "Table does not exist")], Stopped).
Proof.
  assert (Hf : forall tr ev, w_fails (ok_world 0 ex_df) tr ev = None) by reflexivity.
  split; [reflexivity |]. split; [reflexivity |]. split; [exact Hf |].
  exact (click_without_upload ascii_ucd (ok_world 0 ex_df) (noupload_params false)
           eq_refl eq_refl Hf).
Defined.



(** "Data inserted successfully" is shown only right after a batch
    insert and its commit that both went through, and the run then ends
    normally. *)
Theorem success_only_after_commit U w p :
  In (EvUiSuccess msg_inserted) (fst (run_script U w p [])) ->
  snd (run_script U w p []) = Ok tt /\
  exists pre sql rows,
    fst (run_script U w p []) = pre ++ [EvExecuteMany sql rows; EvCommit; EvUiSuccess msg_inserted] /\
    w_fails w pre (EvExecuteMany sql rows) = None /\
    w_fails w (pre ++ [EvExecuteMany sql rows]) EvCommit = None.
Proof.
  unfold run_script, read_file, upload_trigger, try_except, upload_body, get_connection, table_exists,
    create_table, insert_dataframe, commit, read_df, bind, db_call, ret, emit, st_stop, raise.
  destruct (p_uploaded p) as [f|]; [destruct (parse_upload w f) as [d0|e0] |];
  destruct (p_button p), (p_create_if_missing p);
  split_world.
  all: intros H; cbn [fst snd In app] in H |- *.
  all: first
    [ split; [reflexivity |]; do 3 eexists; split; [| split; eassumption]; reflexivity
    | exfalso; repeat (destruct H as [H|H];
        [ first [ discriminate H
                | injection H as H; apply (f_equal (@head N)) in H; vm_compute in H; discriminate H ] |]);
      exact H ].
Qed.

Lemma success_only_after_commit_witness :
  In (EvUiSuccess msg_inserted) (fst (run_script ascii_ucd (ok_world 1 ex_df) (ex_params None true) [])) /\
  snd (run_script ascii_ucd (ok_world 1 ex_df) (ex_params None true) []) = Ok tt.
Proof.
  assert (H : In (EvUiSuccess msg_inserted)
                (fst (run_script ascii_ucd (ok_world 1 ex_df) (ex_params None true) [])))
    by (vm_compute; repeat (first [left; reflexivity | right])).
  split; [exact H |].
  exact (proj1 (success_only_after_commit ascii_ucd (ok_world 1 ex_df) (ex_params None true) H)).
Defined.

(* ------------------------------------------------------------------ *)
(** ** The rows and placeholders of [insert_dataframe] *)







Lemma nth_Forall {A} (P : A -> Prop) l i d : Forall P l -> P d -> P (nth i l d).
Proof.
  intros Hl Hd. revert i. induction Hl as [|x l Hx Hl IH]; intros [|i]; simpl; auto.
Qed.

Lemma where_notnull_none_dtypes df :
  map s_dtype (f_data (where_notnull_none df)) = map s_dtype (f_data df).
Proof. unfold where_notnull_none. simpl. rewrite map_map. reflexivity. Qed.

(** In a frame of object (text) columns, every missing cell reaches
    [executemany] as [None]: no NaN, NaT or NA is sent. *)
Theorem object_frame_rows_use_none schema table df :
  Forall (fun s => s_dtype s = DObject) (f_data df) ->
  Forall (Forall (fun v => notnull v = true \/ v = CNone)) (snd (insert_statement schema table df)).
Proof.
  intros Hobj. unfold insert_statement, values_tolist. cbn [snd].
  rewrite where_notnull_none_dtypes.
  assert (Hnf : existsb is_float_dtype (map s_dtype (f_data df)) = false).
  { induction Hobj as [|s ss Hs _ IH]; [reflexivity |]. simpl. rewrite Hs. exact IH. }
  unfold values_cast. rewrite Hnf, andb_false_r.
  apply List.Forall_forall. intros row Hrow. apply in_map_iff in Hrow as [i [<- _]].
  unfold where_notnull_none. cbn [f_data]. rewrite map_map.
  apply List.Forall_forall. intros v Hv. apply in_map_iff in Hv as [s [<- Hs]]. cbn [s_values s_dtype].
  rewrite (proj1 (List.Forall_forall _ _) Hobj s Hs).
  apply nth_Forall; [| right; reflexivity].
  apply List.Forall_forall. intros x Hx. apply in_map_iff in Hx as [y [<- _]].
  destruct (notnull y) eqn:E; [left; exact E | right; reflexivity].
Qed.

Lemma object_frame_rows_use_none_witness :
  Forall (fun s => s_dtype s = DObject) (f_data obj_df) /\
  Forall (Forall (fun v => notnull v = true \/ v = CNone)) (snd (insert_statement None (lit "T") obj_df)).
Proof.
  assert (H : Forall (fun s => s_dtype s = DObject) (f_data obj_df)) by repeat constructor.
  split; [exact H | exact (object_frame_rows_use_none None (lit "T") obj_df H)].
Defined.

(** In a frame of numpy int and float columns with at least one float
    column, [df.values] is a float array: no Python int reaches
    [executemany], the int cells are sent as floats. *)
Theorem numeric_frame_rows_have_no_ints schema table df :
  forallb numpy_numeric (map s_dtype (f_data df)) = true ->
  existsb is_float_dtype (map s_dtype (f_data df)) = true ->
  Forall (Forall (fun v => forall z, v <> CInt z)) (snd (insert_statement schema table df)).
Proof.
  intros Hn Hf. unfold insert_statement, values_tolist. cbn [snd].
  rewrite where_notnull_none_dtypes. unfold values_cast. rewrite Hn, Hf.
  apply List.Forall_forall. intros row Hrow. apply in_map_iff in Hrow as [i [<- _]].
  apply List.Forall_forall. intros v Hv. apply in_map_iff in Hv as [s [<- _]].
  destruct (nth i (s_values s) CNone); discriminate.
Qed.

Lemma numeric_frame_rows_have_no_ints_witness :
  forallb numpy_numeric (map s_dtype (f_data num_df)) = true /\
  existsb is_float_dtype (map s_dtype (f_data num_df)) = true /\
  Forall (Forall (fun v => forall z, v <> CInt z)) (snd (insert_statement None (lit "T") num_df)).
Proof.
  split; [reflexivity |]. split; [reflexivity |].
  exact (numeric_frame_rows_have_no_ints None (lit "T") num_df eq_refl eq_refl).
Defined.

(* ------------------------------------------------------------------ *)
(** ** Labels that collide after sanitization *)

Lemma filter_combine_length (c : pystr) (xs : list pystr) (ys : list series) :
  length xs = length ys ->
  length (filter (fun p => bool_decide (fst p = c)) (combine xs ys)) =
  length (filter (fun x => bool_decide (x = c)) xs).
Proof.
  revert ys. induction xs as [|x xs IH]; intros [|y ys] Hl; simpl in *; try lia.
  rewrite !filter_cons. simpl. destruct (bool_decide (x = c)); simpl; rewrite IH by lia; reflexivity.
Qed.

(** A label that occurs twice or more (as two headers that sanitize
    alike produce) selects a DataFrame, so its columns are declared
    [VARCHAR2(4000)] in the CREATE TABLE whatever their dtypes. *)
Theorem duplicate_label_gets_varchar df c :
  length (f_columns df) = length (f_data df) ->
  (2 <= length (filter (fun x => bool_decide (x = c)) (f_columns df)))%nat ->
  infer_oracle_type (df_get df c) = lit "VARCHAR2(4000)".
Proof.
  intros Hl H2. rewrite <- (filter_combine_length c _ _ Hl) in H2.
  unfold df_get.
  destruct (filter (fun p => bool_decide (fst p = c)) (combine (f_columns df) (f_data df)))
    as [|[c1 s1] [|p2 ps]]; simpl in H2; try lia; reflexivity.
Qed.

Lemma duplicate_label_gets_varchar_witness :
  length (f_columns (sanitized_frame ascii_ucd collide_df)) = length (f_data (sanitized_frame ascii_ucd collide_df)) /\
  (2 <= length (filter (fun x => bool_decide (x = lit "A_B")) (f_columns (sanitized_frame ascii_ucd collide_df))))%nat /\
  infer_oracle_type (df_get (sanitized_frame ascii_ucd collide_df) (lit "A_B")) = lit "VARCHAR2(4000)".
Proof.
  assert (Hl : length (f_columns (sanitized_frame ascii_ucd collide_df)) =
               length (f_data (sanitized_frame ascii_ucd collide_df))) by reflexivity.
  assert (H2 : (2 <= length (filter (fun x => bool_decide (x = lit "A_B"))
                               (f_columns (sanitized_frame ascii_ucd collide_df))))%nat)
    by (vm_compute; lia).
  split; [exact Hl |]. split; [exact H2 |].
  exact (duplicate_label_gets_varchar (sanitized_frame ascii_ucd collide_df) (lit "A_B") Hl H2).
Defined.

(* ------------------------------------------------------------------ *)
(** ** More on [sanitize_identifier] *)

Section SanitizeMore.
Variable U : unicode_db.

Lemma lstrip_space_app ws x :
  Forall (fun c => ucd_isspace U c = true) ws -> lstrip U (ws ++ x) = lstrip U x.
Proof. induction 1 as [|c ws Hc _ IH]; simpl; [reflexivity |]. rewrite Hc. exact IH. Qed.

Lemma lstrip_app s t :
  lstrip U (s ++ t) = match lstrip U s with [] => lstrip U t | y => y ++ t end.
Proof.
  induction s as [|c s IH]; simpl; [reflexivity |].
  destruct (ucd_isspace U c); [exact IH | reflexivity].
Qed.

Lemma py_strip_surrounding ws1 s ws2 :
  Forall (fun c => ucd_isspace U c = true) ws1 ->
  Forall (fun c => ucd_isspace U c = true) ws2 ->
  py_strip U (ws1 ++ s ++ ws2) = py_strip U s.
Proof.
  intros H1 H2. unfold py_strip. rewrite lstrip_space_app by exact H1.
  rewrite lstrip_app.
  destruct (lstrip U s) as [|y ys] eqn:E.
  - rewrite <- (app_nil_r ws2), lstrip_space_app by exact H2. reflexivity.
  - rewrite rev_app_distr, lstrip_space_app; [reflexivity |].
    apply Forall_rev. exact H2.
Qed.

(** Leading and trailing whitespace of a header never matters:
    [sanitize_identifier] gives the same label with or without it. *)
Theorem sanitize_ignores_surrounding_space ws1 s ws2 :
  Forall (fun c => ucd_isspace U c = true) ws1 ->
  Forall (fun c => ucd_isspace U c = true) ws2 ->
  sanitize_identifier U (ws1 ++ s ++ ws2) = sanitize_identifier U s.
Proof.
  intros H1 H2. unfold sanitize_identifier. rewrite (py_strip_surrounding ws1 s ws2 H1 H2).
  reflexivity.
Qed.

Hypothesis HU : ucd_ascii_agree U.

Lemma py_isspace_letters c : 65 <= c <= 122 -> py_isspace c = false.
Proof.
  intros Hc. destruct (py_isspace c) eqn:E; [exfalso | reflexivity].
  unfold py_isspace in E.
  repeat (rewrite orb_true_iff in E || rewrite andb_true_iff in E
          || rewrite N.leb_le in E || rewrite N.eqb_eq in E).
  lia.
Qed.

Lemma same_upper_facts a b :
  ascii_upper a = ascii_upper b ->
  ucd_isspace U a = ucd_isspace U b /\ ucd_upper U a = ucd_upper U b.
Proof.
  intros Hab. destruct (N.eq_dec a b) as [<-|Hne]; [split; reflexivity |].
  assert (Hr : a < 128 /\ b < 128 /\ 65 <= a <= 122 /\ 65 <= b <= 122).
  { unfold ascii_upper in Hab.
    destruct (N.leb_spec 97 a), (N.leb_spec a 122), (N.leb_spec 97 b), (N.leb_spec b 122);
      simpl in Hab; lia. }
  destruct Hr as (Ha & Hb & Ha' & Hb').
  destruct (HU a Ha) as (Ua & Sa & _), (HU b Hb) as (Ub & Sb & _).
  rewrite Sa, Sb, Ua, Ub, Hab, !py_isspace_letters by lia. split; reflexivity.
Qed.

Lemma lstrip_same_upper s t :
  Forall2 (fun a b => ascii_upper a = ascii_upper b) s t ->
  Forall2 (fun a b => ascii_upper a = ascii_upper b) (lstrip U s) (lstrip U t).
Proof.
  induction 1 as [|a b s t Hab Hst IH]; simpl; [constructor |].
  rewrite (proj1 (same_upper_facts a b Hab)).
  destruct (ucd_isspace U b); [exact IH | constructor; assumption].
Qed.

Lemma Forall2_rev_same {A} (R : A -> A -> Prop) s t :
  Forall2 R s t -> Forall2 R (rev s) (rev t).
Proof.
  induction 1; simpl; [constructor |]. apply Forall2_app; [assumption | repeat constructor; assumption].
Qed.

Lemma py_upper_same_upper s t :
  Forall2 (fun a b => ascii_upper a = ascii_upper b) s t -> py_upper U s = py_upper U t.
Proof.
  unfold py_upper. induction 1 as [|a b s t Hab _ IH]; simpl; [reflexivity |].
  rewrite (proj2 (same_upper_facts a b Hab)), IH. reflexivity.
Qed.

(** Headers that differ only in the case of ASCII letters sanitize to
    the same label. *)
Theorem sanitize_ignores_ascii_case s t :
  Forall2 (fun a b => ascii_upper a = ascii_upper b) s t ->
  sanitize_identifier U s = sanitize_identifier U t.
Proof.
  intros H. unfold sanitize_identifier, py_strip.
  rewrite (py_upper_same_upper _ _
             (Forall2_rev_same _ _ _ (lstrip_same_upper _ _
               (Forall2_rev_same _ _ _ (lstrip_same_upper _ _ H))))).
  reflexivity.
Qed.

End SanitizeMore.

Lemma sanitize_ignores_surrounding_space_witness :
  Forall (fun c => ucd_isspace ascii_ucd c = true) [32; 9] /\
  Forall (fun c => ucd_isspace ascii_ucd c = true) [10] /\
  sanitize_identifier ascii_ucd ([32; 9] ++ lit "unit price" ++ [10]) =
    sanitize_identifier ascii_ucd (lit "unit price").
Proof.
  assert (H1 : Forall (fun c => ucd_isspace ascii_ucd c = true) [32; 9]) by repeat constructor.
  assert (H2 : Forall (fun c => ucd_isspace ascii_ucd c = true) [10]) by repeat constructor.
  split; [exact H1 |]. split; [exact H2 |].
  exact (sanitize_ignores_surrounding_space ascii_ucd [32; 9] (lit "unit price") [10] H1 H2).
Defined.

Lemma sanitize_ignores_ascii_case_witness :
  ucd_ascii_agree ascii_ucd /\
  Forall2 (fun a b => ascii_upper a = ascii_upper b) (lit "Unit Price") (lit "unit PRICE") /\
  sanitize_identifier ascii_ucd (lit "Unit Price") = sanitize_identifier ascii_ucd (lit "unit PRICE").
Proof.
  assert (H : Forall2 (fun a b => ascii_upper a = ascii_upper b) (lit "Unit Price") (lit "unit PRICE"))
    by repeat constructor.
  split; [exact ascii_ucd_agree |]. split; [exact H |].
  exact (sanitize_ignores_ascii_case ascii_ucd ascii_ucd_agree _ _ H).
Defined.
